(** * The S3 bucket resource of the AWS provider: lifecycle reconciler

    A shallow embedding of [resource_aws_s3_bucket.go]: the four lifecycle
    functions (Create, Read, Update, Delete) and the website reconciler
    [updateWebsite].

    - The S3 client ([s3conn]) is the only channel to the remote provider.
      A function that uses it is a program over S3 requests ([S3Prog]):
      every request it sends is a node of the program, and the answer of
      the provider is the argument of the continuation.  Running a program
      against a gateway ([run]) yields the result, the gateway's final
      state and the list of the requests that were sent, in order.
    - [*schema.ResourceData] is a record that the functions read and
      update; it is threaded through the calls ([M]), together with the
      Go [error] result.
    - [setTagsS3], [getTagSetS3] and [tagsToMapS3] live in a file of the
      provider that is not part of this development: the lifecycle
      functions take them as parameters, and an instance written after the
      specification is given at the end for the examples. *)

From stdpp Require Import base strings gmap list.
From Stdlib Require Import ZArith Ascii.

Local Open Scope string_scope.
Local Open Scope Z_scope.
Local Open Scope list_scope.

(** ** Errors *)

(** [aws.APIError] carries the HTTP status code of the response; every
    other Go error is known by its message only ([errors.errorString],
    which is what [fmt.Errorf] builds). *)
Inductive error : Type :=
| APIError (StatusCode : Z) (Code Message : string)
| errorString (s : string).

(** The [Error()] method of the [error] interface. *)
Definition Error (e : error) : string :=
  match e with
  | APIError _ _ Message => Message
  | errorString s => s
  end.

(** [awsError, ok := err.(aws.APIError); ok && awsError.StatusCode == 404] *)
Definition isStatus404 (err : error) : bool :=
  match err with
  | APIError StatusCode _ _ => StatusCode =? 404
  | errorString _ => false
  end.

(** The double quote that the format string of Read escapes. *)
Definition dquote : string := String "034"%char EmptyString.

(** [fmt.Errorf("Error creating S3 bucket: %s", err)] *)
Definition Errorf_creating (err : error) : error :=
  errorString ("Error creating S3 bucket: " +:+ Error err).

(** The error of Read: [fmt.Errorf] with the format
    [error reading S3 bucket <dq>%s<dq>: %s], where [<dq>] is the escaped
    double quote, applied to [d.Id()] and [err]. *)
Definition Errorf_reading (id : string) (err : error) : error :=
  errorString ("error reading S3 bucket " +:+ dquote +:+ id +:+ dquote
               +:+ ": " +:+ Error err).

(** [fmt.Errorf("Error putting S3 website: %s", err)] *)
Definition Errorf_putting_website (err : error) : error :=
  errorString ("Error putting S3 website: " +:+ Error err).

(** [fmt.Errorf("Error deleting S3 website: %s", err)] *)
Definition Errorf_deleting_website (err : error) : error :=
  errorString ("Error deleting S3 website: " +:+ Error err).

(** A Go call that returns [(value, error)]. *)
Inductive result (A : Type) : Type :=
| Ok (a : A)
| Err (e : error).
Arguments Ok {A} a.
Arguments Err {A} e.

(** The [error] a Go caller sees: [nil] is [None]. *)
Definition err_of {A} (r : result A) : option error :=
  match r with
  | Ok _ => None
  | Err e => Some e
  end.

(** ** The request types of the S3 client

    Pointer fields ([*string], [*s3.IndexDocument], ...) are options:
    [nil] is [None], [aws.String(s)] is [Some s]. *)

Record CreateBucketConfiguration : Type :=
  { LocationConstraint : option string }.

Record CreateBucketInput : Type :=
  { cb_Bucket : option string;
    cb_ACL : option string;
    cb_CreateBucketConfiguration : option CreateBucketConfiguration }.

Record IndexDocument : Type := { Suffix : option string }.
Record ErrorDocument : Type := { Key : option string }.

Record WebsiteConfiguration : Type :=
  { wc_IndexDocument : option IndexDocument;
    wc_ErrorDocument : option ErrorDocument }.

Record PutBucketWebsiteInput : Type :=
  { pw_Bucket : option string;
    pw_WebsiteConfiguration : option WebsiteConfiguration }.

Record Tag : Type := { tag_Key : string; tag_Value : string }.

Inductive S3Request : Type :=
| CreateBucket (input : CreateBucketInput)
| HeadBucket (Bucket : option string)
| DeleteBucket (Bucket : option string)
| PutBucketWebsite (input : PutBucketWebsiteInput)
| DeleteBucketWebsite (Bucket : option string)
| GetBucketTagging (Bucket : option string)
| PutBucketTagging (Bucket : option string) (TagSet : list Tag)
| DeleteBucketTagging (Bucket : option string).

(** What a successful request returns.  The lifecycle functions drop every
    output ([_, err := ...]); only the tag set of [GetBucketTagging] is
    ever looked at (by the tag helpers). *)
Definition S3Output (r : S3Request) : Type :=
  match r with
  | GetBucketTagging _ => list Tag
  | _ => unit
  end.

(** ** Programs over the S3 client *)

Inductive S3Prog (A : Type) : Type :=
| Ret (a : A)
| Send (r : S3Request) (k : result (S3Output r) -> S3Prog A).
Arguments Ret {A} a.
Arguments Send {A} r k.

Fixpoint s3bind {A B : Type} (p : S3Prog A) (f : A -> S3Prog B) : S3Prog B :=
  match p with
  | Ret a => f a
  | Send r k => Send r (fun o => s3bind (k o) f)
  end.

(** ** The resource record

    [d.Get(key)] and [d.Set(key, v)] over the schema of
    [resourceAwsS3Bucket], and the resource ID ([d.Id()], [d.SetId]). *)

Record ResourceData : Type :=
  { Id : string;
    bucket : string;
    acl : string;
    website : bool;
    index_document : string;
    error_document : string;
    tags : gmap string string }.

Definition with_Id (v : string) (d : ResourceData) : ResourceData :=
  {| Id := v; bucket := bucket d; acl := acl d; website := website d;
     index_document := index_document d; error_document := error_document d;
     tags := tags d |}.

Definition with_tags (v : gmap string string) (d : ResourceData) : ResourceData :=
  {| Id := Id d; bucket := bucket d; acl := acl d; website := website d;
     index_document := index_document d; error_document := error_document d;
     tags := v |}.

(** The [AWSClient] behind [meta]: its connection [s3conn] is the effect
    of [S3Prog]; its region is plain data. *)
Record AWSClient : Type := { region : string }.

(** ** The monad of a lifecycle function

    A function [func f(d *schema.ResourceData, ...) error] reads and
    updates [d], talks to S3 and returns an error or [nil].  [Err e] is an
    early [return e]; the record keeps the updates made before it. *)

Definition M (A : Type) : Type := ResourceData -> S3Prog (result A * ResourceData).

Definition ret {A} (a : A) : M A := fun d => Ret (Ok a, d).

Definition bind {A B} (m : M A) (f : A -> M B) : M B :=
  fun d => s3bind (m d) (fun rd =>
    match rd.1 with
    | Ok a => f a rd.2
    | Err e => Ret (Err e, rd.2)
    end).

#[global] Instance M_ret : MRet M := @ret.
#[global] Instance M_bind : MBind M := fun A B f m => bind m f.

(** [return err] *)
Definition throw {A} (e : error) : M A := fun d => Ret (Err e, d).

(** [_, err := s3conn.Op(req)]: the answer is handed to the caller, who
    decides what an error means. *)
Definition send (r : S3Request) : M (result (S3Output r)) :=
  fun d => Send r (fun o => Ret (Ok o, d)).

(** [v, err := helper(s3conn, ...); if err != nil { return err }] *)
Definition propagate {A} (p : S3Prog (result A)) : M A :=
  fun d => s3bind p (fun r => Ret (r, d)).

Definition get {A} (f : ResourceData -> A) : M A := fun d => Ret (Ok (f d), d).

(** [d.SetId(v)]: from then on [d.Id()] is [v], the empty string too. *)
Definition SetId (v : string) : M unit := fun d => Ret (Ok tt, with_Id v d).

(** [d.Set("tags", v)]: the schema of [tags] is a map of strings, so that
    a map of strings is always accepted and the returned error is [nil]. *)
Definition Set_tags (v : gmap string string) : M unit :=
  fun d => Ret (Ok tt, with_tags v d).

(** ** The lifecycle functions of [resource_aws_s3_bucket.go] *)

Section Lifecycle.

(** The tag helpers of the provider ([setTagsS3(s3conn, d)],
    [getTagSetS3(s3conn, bucket)], [tagsToMapS3(tagSet)]).  Their types
    are all that is used: [getTagSetS3] receives the connection and a
    bucket name, so that it cannot touch the resource record. *)
Variable setTagsS3 : M unit.
Variable getTagSetS3 : string -> S3Prog (result (list Tag)).
Variable tagsToMapS3 : list Tag -> gmap string string.

Definition resourceAwsS3BucketRead (meta : AWSClient) : M unit :=
  id ← get Id;
  r ← send (HeadBucket (Some id));
  match r with
  | Err err =>
      if isStatus404 err then SetId EmptyString
      else
        (* some of the AWS SDK's errors can be empty strings, so let's add
           some additional context. *)
        id ← get Id; throw (Errorf_reading id err)
  | Ok _ => mret tt
  end;;
  id ← get Id;
  tagSet ← propagate (getTagSetS3 id);
  Set_tags (tagsToMapS3 tagSet).

Definition updateWebsite : M unit :=
  website ← get website;
  bucket ← get bucket;
  indexDocument ← get index_document;
  errorDocument ← get error_document;
  if (website : bool) then
    let websiteConfiguration :=
      {| wc_IndexDocument := None; wc_ErrorDocument := None |} in
    let websiteConfiguration :=
      if negb (String.eqb indexDocument EmptyString) then
        {| wc_IndexDocument := Some {| Suffix := Some indexDocument |};
           wc_ErrorDocument := wc_ErrorDocument websiteConfiguration |}
      else websiteConfiguration in
    let websiteConfiguration :=
      if negb (String.eqb errorDocument EmptyString) then
        {| wc_IndexDocument := wc_IndexDocument websiteConfiguration;
           wc_ErrorDocument := Some {| Key := Some errorDocument |} |}
      else websiteConfiguration in
    let putInput :=
      {| pw_Bucket := Some bucket;
         pw_WebsiteConfiguration := Some websiteConfiguration |} in
    r ← send (PutBucketWebsite putInput);
    match r with
    | Err err => throw (Errorf_putting_website err)
    | Ok _ => mret tt
    end
  else
    r ← send (DeleteBucketWebsite (Some bucket));
    match r with
    | Err err => throw (Errorf_deleting_website err)
    | Ok _ => mret tt
    end.

Definition resourceAwsS3BucketUpdate (meta : AWSClient) : M unit :=
  setTagsS3;;
  updateWebsite;;
  resourceAwsS3BucketRead meta.

Definition resourceAwsS3BucketCreate (meta : AWSClient) : M unit :=
  let awsRegion := region meta in
  (* Get the bucket and acl *)
  bucket ← get bucket;
  acl ← get acl;
  let req :=
    {| cb_Bucket := Some bucket; cb_ACL := Some acl;
       cb_CreateBucketConfiguration := None |} in
  (* Special case us-east-1 region and do not set the LocationConstraint. *)
  let req :=
    if negb (String.eqb awsRegion "us-east-1") then
      {| cb_Bucket := cb_Bucket req; cb_ACL := cb_ACL req;
         cb_CreateBucketConfiguration :=
           Some {| LocationConstraint := Some awsRegion |} |}
    else req in
  r ← send (CreateBucket req);
  match r with
  | Err err => throw (Errorf_creating err)
  | Ok _ => mret tt
  end;;
  (* Assign the bucket name as the resource ID *)
  SetId bucket;;
  resourceAwsS3BucketUpdate meta.

Definition resourceAwsS3BucketDelete (meta : AWSClient) : M unit :=
  id ← get Id;
  r ← send (DeleteBucket (Some id));
  match r with
  | Err err => throw err
  | Ok _ => mret tt
  end.

End Lifecycle.

(** ** Running a program against a gateway

    A gateway is a state [G] and the answer it gives to each request. *)

Section Run.

Context {G : Type}.
Variable respond : forall r : S3Request, G -> result (S3Output r) * G.

(** The result, the final state of the gateway and the requests sent. *)
Fixpoint run {A : Type} (p : S3Prog A) (g : G) : A * G * list S3Request :=
  match p with
  | Ret a => (a, g, [])
  | Send r k =>
      let og := respond r g in
      let out := run (k og.1) og.2 in
      (out.1.1, out.1.2, r :: out.2)
  end.

(** Read after the existence check: the tag fetch for the identity that
    the record [d1] holds at that point, and the write of the tags. *)
Definition read_tags (getTagSetS3 : string -> S3Prog (result (list Tag)))
    (tagsToMapS3 : list Tag -> gmap string string)
    (d1 : ResourceData) (g1 : G)
    : result unit * ResourceData * G * list S3Request :=
  let fetch := run (getTagSetS3 (Id d1)) g1 in
  (match fetch.1.1 with
   | Ok tagSet => (Ok tt, with_tags (tagsToMapS3 tagSet) d1)
   | Err err => (Err err, d1)
   end, fetch.1.2, fetch.2).

End Run.

(** ** The words of the specification, to compare the code with *)

(** The request of Create: the name, the access policy and a location
    constraint, omitted when the configured region is the provider's
    default region and equal to the region string otherwise. *)
Definition CreateBucket_spec (configured name accessPolicy : string) : S3Request :=
  CreateBucket
    {| cb_Bucket := Some name;
       cb_ACL := Some accessPolicy;
       cb_CreateBucketConfiguration :=
         if decide (configured = "us-east-1") then None
         else Some {| LocationConstraint := Some configured |} |}.

(** What the website reconciler decides from its three input fields. *)
Inductive WebsiteAction : Type :=
| PutWebsite (indexSuffix errorKey : option string)
| DeleteWebsite.

Definition nonempty (s : string) : option string :=
  if decide (s = EmptyString) then None else Some s.

Definition ReconcileWebsite_spec (enabled : bool)
    (indexDocument errorDocument : string) : WebsiteAction :=
  if enabled then PutWebsite (nonempty indexDocument) (nonempty errorDocument)
  else DeleteWebsite.

(** The request that carries an action to the bucket [name]. *)
Definition website_request (name : string) (a : WebsiteAction) : S3Request :=
  match a with
  | PutWebsite indexSuffix errorKey =>
      PutBucketWebsite
        {| pw_Bucket := Some name;
           pw_WebsiteConfiguration :=
             Some {| wc_IndexDocument :=
                       (fun s => {| Suffix := Some s |}) <$> indexSuffix;
                     wc_ErrorDocument :=
                       (fun s => {| Key := Some s |}) <$> errorKey |} |}
  | DeleteWebsite => DeleteBucketWebsite (Some name)
  end.

(** The annotation that the website reconciler puts on a failure. *)
Definition website_error (a : WebsiteAction) (err : error) : error :=
  match a with
  | PutWebsite _ _ => Errorf_putting_website err
  | DeleteWebsite => Errorf_deleting_website err
  end.

(** [mentions needle hay]: the message [hay] has [needle] as a substring;
    this is how an error that is tagged with a name or that wraps a cause
    is recognised. *)
Fixpoint mentions (needle hay : string) : bool :=
  String.prefix needle hay ||
  match hay with
  | EmptyString => false
  | String _ hay' => mentions needle hay'
  end.

(** ** The tag helpers, after the specification *)

(** Modelled from the spec: the conversion [tagsFromMapS3] of the tag file
    of the provider, which is not part of this development: the desired
    mapping in the provider's wire list format, one key and value pair per
    entry. *)
Definition tagsFromMapS3 (m : gmap string string) : list Tag :=
  (fun kv => {| tag_Key := kv.1; tag_Value := kv.2 |}) <$> map_to_list m.

(** Modelled from the spec: the tag reconciler [setTagsS3] of the tag file
    of the provider: it always performs a full-replace put of the desired
    mapping, and returns a failure unchanged. *)
Definition setTagsS3_spec : M unit :=
  id ← get Id;
  desired ← get tags;
  r ← send (PutBucketTagging (Some id) (tagsFromMapS3 desired));
  match r with
  | Err err => throw err
  | Ok _ => mret tt
  end.

(** Modelled from the spec: the tag fetch [getTagSetS3] of the tag file of
    the provider: it retrieves the remote wire-format tag list of the
    identity it is given. *)
Definition getTagSetS3_spec (identity : string) : S3Prog (result (list Tag)) :=
  Send (GetBucketTagging (Some identity)) (fun o => Ret o).

(** Modelled from the spec: the conversion [tagsToMapS3] of the tag file
    of the provider: the wire list as a mapping; of two entries with the
    same key the last one wins. *)
Definition tagsToMapS3_spec (tagSet : list Tag) : gmap string string :=
  foldl (fun m t => <[tag_Key t := tag_Value t]> m) ∅ tagSet.

(** ** A scripted gateway, for the examples

    The gateway answers the requests it receives with the replies of a
    script, in order, whatever the request; when the script is used up
    every request succeeds (with no tags). *)

Inductive Reply : Type :=
| Success (TagSet : list Tag)
| Failure (e : error).

Definition output (r : S3Request) (TagSet : list Tag) : S3Output r :=
  match r return S3Output r with
  | GetBucketTagging _ => TagSet
  | _ => tt
  end.

Definition scripted (r : S3Request) (script : list Reply)
    : result (S3Output r) * list Reply :=
  match script with
  | [] => (Ok (output r []), [])
  | Success TagSet :: rest => (Ok (output r TagSet), rest)
  | Failure e :: rest => (Err e, rest)
  end.

(** The lifecycle functions with the helpers of the specification. *)
Definition Create_spec := resourceAwsS3BucketCreate setTagsS3_spec getTagSetS3_spec tagsToMapS3_spec.
Definition Read_spec := resourceAwsS3BucketRead getTagSetS3_spec tagsToMapS3_spec.
Definition Update_spec := resourceAwsS3BucketUpdate setTagsS3_spec getTagSetS3_spec tagsToMapS3_spec.

(** The record of the create-then-converge example of the specification,
    before Create. *)
Definition b1 : ResourceData :=
  {| Id := EmptyString; bucket := "b1"; acl := "private"; website := true;
     index_document := "index.html"; error_document := EmptyString;
     tags := {[ "env" := "prod" ]} |}.

(** The same record once created. *)
Definition b1_created : ResourceData := with_Id "b1" b1.

(** Two answers of the provider: the not-found status and a refusal. *)
Definition notFound : error := APIError 404 "NotFound" "Not Found".
Definition denied : error := APIError 403 "AccessDenied" "Access Denied".

Definition us_east_1 : AWSClient := {| region := "us-east-1" |}.
Definition eu_west_1 : AWSClient := {| region := "eu-west-1" |}.

(** * Properties *)

(** ** Substrings of messages *)

Lemma prefix_app (s t : string) : String.prefix s (s +:+ t) = true.
Proof.
  induction s as [|a s IH]; [by destruct t|].
  change (String.prefix (String a s) (String a (s +:+ t)) = true). simpl.
  destruct (ascii_dec a a) as [_|Hne]; [exact IH | by destruct Hne].
Qed.

Lemma mentions_prefix (s t : string) : mentions s (s +:+ t) = true.
Proof.
  assert (U : forall hay, mentions s hay =
    String.prefix s hay ||
    match hay with EmptyString => false | String _ hay' => mentions s hay' end)
    by (by intros [|a hay]).
  by rewrite U, prefix_app.
Qed.

Lemma mentions_app_r (s pre t : string) :
  mentions s t = true -> mentions s (pre +:+ t) = true.
Proof.
  intros H. induction pre as [|a pre IH]; [exact H|].
  change (mentions s (String a (pre +:+ t)) = true). simpl.
  rewrite IH. apply orb_true_r.
Qed.

Lemma string_app_empty_r (s : string) : s +:+ EmptyString = s.
Proof.
  induction s as [|a s IH]; [reflexivity|].
  change (String a (s +:+ EmptyString) = String a s). by rewrite IH.
Qed.

Lemma mentions_self (s : string) : mentions s s = true.
Proof.
  pose proof (mentions_prefix s EmptyString) as H.
  by rewrite string_app_empty_r in H.
Qed.

(** ** Running a sequence *)

Ltac unfold_M :=
  unfold mbind, M_bind, bind, mret, M_ret, ret, get, send, throw, propagate,
    SetId, Set_tags;
  simpl.

Section Properties.

Variable setTagsS3 : M unit.
Variable getTagSetS3 : string -> S3Prog (result (list Tag)).
Variable tagsToMapS3 : list Tag -> gmap string string.

Context {G : Type}.
Variable respond : forall r : S3Request, G -> result (S3Output r) * G.

Local Abbreviation Read := (resourceAwsS3BucketRead getTagSetS3 tagsToMapS3).
Local Abbreviation Update := (resourceAwsS3BucketUpdate setTagsS3 getTagSetS3 tagsToMapS3).
Local Abbreviation Create := (resourceAwsS3BucketCreate setTagsS3 getTagSetS3 tagsToMapS3).
Local Abbreviation Delete := resourceAwsS3BucketDelete.
Local Abbreviation exec := (run respond).

Lemma run_s3bind {A B : Type} (p : S3Prog A) (f : A -> S3Prog B) (g : G) :
  exec (s3bind p f) g =
  let o1 := exec p g in
  let o2 := exec (f o1.1.1) o1.1.2 in
  (o2.1.1, o2.1.2, o1.2 ++ o2.2).
Proof.
  revert g. induction p as [a | r k IH]; intros g; simpl.
  - by destruct (run respond (f a) g) as [[b g'] t].
  - rewrite IH. reflexivity.
Qed.

(** [m ;; k] when [m] fails: the failure is the result and [k] is not run. *)
Lemma run_bind_Err {A B : Type} (m : M A) (k : A -> M B) d g e d1 g1 t1 :
  exec (m d) g = ((Err e, d1), g1, t1) ->
  exec ((m ≫= k) d) g = ((Err e, d1), g1, t1).
Proof.
  intros H. unfold mbind, M_bind, bind. rewrite run_s3bind, H. simpl.
  by rewrite app_nil_r.
Qed.

(** [m ;; k] when [m] succeeds: [k] runs from where [m] stopped. *)
Lemma run_bind_Ok {A B : Type} (m : M A) (k : A -> M B) d g a d1 g1 t1 :
  exec (m d) g = ((Ok a, d1), g1, t1) ->
  exec ((m ≫= k) d) g =
  let o2 := exec (k a d1) g1 in (o2.1.1, o2.1.2, t1 ++ o2.2).
Proof.
  intros H. unfold mbind, M_bind, bind. rewrite run_s3bind, H. reflexivity.
Qed.

(** ** The lifecycle functions, run *)

(** The request that the code of Create builds is the one the
    specification words. *)
Lemma create_request_spec (configured name accessPolicy : string) :
  CreateBucket
    (if negb (String.eqb configured "us-east-1") then
       {| cb_Bucket := Some name; cb_ACL := Some accessPolicy;
          cb_CreateBucketConfiguration :=
            Some {| LocationConstraint := Some configured |} |}
     else
       {| cb_Bucket := Some name; cb_ACL := Some accessPolicy;
          cb_CreateBucketConfiguration := None |})
  = CreateBucket_spec configured name accessPolicy.
Proof.
  unfold CreateBucket_spec.
  destruct (String.eqb_spec configured "us-east-1") as [E|N]; simpl;
    case_decide; congruence.
Qed.

Lemma run_Delete (meta : AWSClient) (d : ResourceData) (g : G) :
  exec (Delete meta d) g =
  let request := DeleteBucket (Some (Id d)) in
  let answer := respond request g in
  ((match answer.1 with Ok _ => Ok tt | Err err => Err err end, d),
   answer.2, [request]).
Proof.
  unfold resourceAwsS3BucketDelete. unfold_M.
  by destruct (respond (DeleteBucket (Some (Id d))) g) as [[o|err] g'].
Qed.

Lemma run_Read (meta : AWSClient) (d : ResourceData) (g : G) :
  exec (Read meta d) g =
  let request := HeadBucket (Some (Id d)) in
  let head := respond request g in
  let continue d1 :=
    let out := read_tags respond getTagSetS3 tagsToMapS3 d1 head.2 in (out.1.1, out.1.2, request :: out.2) in
  match head.1 with
  | Ok _ => continue d
  | Err err =>
      if isStatus404 err then continue (with_Id EmptyString d)
      else ((Err (Errorf_reading (Id d) err), d), head.2, [request])
  end.
Proof.
  unfold resourceAwsS3BucketRead, read_tags. unfold_M.
  destruct (respond (HeadBucket (Some (Id d))) g) as [[o|err] g1]; simpl.
  - unfold_M. rewrite !run_s3bind. simpl.
    destruct (exec (getTagSetS3 (Id d)) g1) as [[[ts|e] g2] t]; simpl;
      by rewrite ?app_nil_r.
  - destruct (isStatus404 err); simpl; [|reflexivity].
    unfold_M. rewrite !run_s3bind. simpl.
    destruct (exec (getTagSetS3 EmptyString) g1) as [[[ts|e] g2] t]; simpl;
      by rewrite ?app_nil_r.
Qed.

Lemma run_updateWebsite (d : ResourceData) (g : G) :
  exec (updateWebsite d) g =
  let action :=
    ReconcileWebsite_spec (website d) (index_document d) (error_document d) in
  let request := website_request (bucket d) action in
  let answer := respond request g in
  ((match answer.1 with
    | Ok _ => Ok tt
    | Err err => Err (website_error action err)
    end, d), answer.2, [request]).
Proof.
  unfold updateWebsite, ReconcileWebsite_spec, nonempty. unfold_M.
  destruct (website d); simpl.
  - destruct (String.eqb_spec (index_document d) EmptyString) as [Ei|Ni],
      (String.eqb_spec (error_document d) EmptyString) as [Ee|Ne];
      repeat case_decide; try congruence; simpl;
      match goal with
      | |- context [respond ?r g] => by destruct (respond r g) as [[o|err] g1]
      end.
  - by destruct (respond (DeleteBucketWebsite (Some (bucket d))) g)
      as [[o|err] g1].
Qed.

Lemma run_Update (meta : AWSClient) (d : ResourceData) (g : G) :
  exec (Update meta d) g =
  let tagsOut := exec (setTagsS3 d) g in
  let webOut := exec (updateWebsite tagsOut.1.1.2) tagsOut.1.2 in
  let readOut := exec (Read meta webOut.1.1.2) webOut.1.2 in
  match tagsOut.1.1.1 with
  | Err _ => tagsOut
  | Ok _ =>
      match webOut.1.1.1 with
      | Err _ => (webOut.1.1, webOut.1.2, tagsOut.2 ++ webOut.2)
      | Ok _ => (readOut.1.1, readOut.1.2, tagsOut.2 ++ webOut.2 ++ readOut.2)
      end
  end.
Proof.
  unfold resourceAwsS3BucketUpdate.
  destruct (exec (setTagsS3 d) g) as [[[[[]|e] d1] g1] t1] eqn:E1; simpl.
  - rewrite (run_bind_Ok _ _ _ _ _ _ _ _ E1).
    destruct (exec (updateWebsite d1) g1) as [[[[[]|e] d2] g2] t2] eqn:E2; simpl.
    + by rewrite (run_bind_Ok _ _ _ _ _ _ _ _ E2).
    + by rewrite (run_bind_Err _ _ _ _ _ _ _ _ E2).
  - by rewrite (run_bind_Err _ _ _ _ _ _ _ _ E1).
Qed.

Lemma run_Create (meta : AWSClient) (d : ResourceData) (g : G) :
  exec (Create meta d) g =
  let request := CreateBucket_spec (region meta) (bucket d) (acl d) in
  let answer := respond request g in
  match answer.1 with
  | Err err => ((Err (Errorf_creating err), d), answer.2, [request])
  | Ok _ =>
      let upd := exec (Update meta (with_Id (bucket d) d)) answer.2 in
      (upd.1.1, upd.1.2, request :: upd.2)
  end.
Proof.
  unfold resourceAwsS3BucketCreate, CreateBucket_spec. unfold_M.
  destruct (String.eqb_spec (region meta) "us-east-1") as [E|N];
    case_decide; try congruence; simpl;
    match goal with
    | |- context [respond ?r g] => destruct (respond r g) as [[o|err] g1]
    end; simpl; try reflexivity;
    by destruct (exec _ g1) as [[rd g2] t].
Qed.

(** The message of Read's error has the identity and the cause in it. *)
Lemma Errorf_reading_mentions (id : string) (err : error) :
  mentions id (Error (Errorf_reading id err)) = true /\
  mentions (Error err) (Error (Errorf_reading id err)) = true.
Proof.
  unfold Errorf_reading, Error at 2 4. split.
  - do 2 apply mentions_app_r. apply mentions_prefix.
  - do 5 apply mentions_app_r. apply mentions_self.
Qed.

(** The message of Create's error has the cause in it. *)
Lemma Errorf_creating_mentions (err : error) :
  mentions (Error err) (Error (Errorf_creating err)) = true.
Proof.
  unfold Errorf_creating, Error at 2. apply mentions_app_r, mentions_self.
Qed.

(** ** The claims *)

(** C1: a failed existence check of Read is classified in exactly two
    ways.  When the error carries the not-found status 404, Read clears
    the identity and goes on to the tag fetch: the error it returns, if
    any, is the one of the tag fetch, and the requests sent are the
    existence check followed by those of the tag fetch.  Any other error
    ends Read at once with an error whose message holds the identity and
    the message of the cause. *)
Theorem read_classifies_existence_check
    (meta : AWSClient) (d : ResourceData) (g g1 : G) (err : error) :
  respond (HeadBucket (Some (Id d))) g = (Err err, g1) ->
  let out := exec (Read meta d) g in
  if isStatus404 err then
    let fetch := exec (getTagSetS3 EmptyString) g1 in
    Id out.1.1.2 = EmptyString /\
    err_of out.1.1.1 = err_of fetch.1.1 /\
    out.2 = HeadBucket (Some (Id d)) :: fetch.2
  else
    out = ((Err (Errorf_reading (Id d) err), d), g1,
           [HeadBucket (Some (Id d))]) /\
    mentions (Id d) (Error (Errorf_reading (Id d) err)) = true /\
    mentions (Error err) (Error (Errorf_reading (Id d) err)) = true.
Proof.
  intros H out. subst out. rewrite run_Read. cbv zeta. rewrite H. simpl.
  destruct (isStatus404 err).
  - unfold read_tags. simpl.
    by destruct (exec (getTagSetS3 EmptyString) g1) as [[[ts|e] g2] t].
  - split; [reflexivity | apply Errorf_reading_mentions].
Qed.

(** C2: the first request of Create is CreateBucket for the name and the
    access policy of the record; it carries a location constraint if and
    only if the configured region is not us-east-1, and the constraint is
    then the configured region string. *)
Theorem create_location_constraint
    (meta : AWSClient) (d : ResourceData) (g : G) :
  exists input rest,
    (exec (Create meta d) g).2 = CreateBucket input :: rest /\
    cb_Bucket input = Some (bucket d) /\
    cb_ACL input = Some (acl d) /\
    (cb_CreateBucketConfiguration input <> None <->
       region meta <> "us-east-1") /\
    (region meta = "us-east-1" ->
       cb_CreateBucketConfiguration input = None) /\
    (region meta <> "us-east-1" ->
       cb_CreateBucketConfiguration input =
       Some {| LocationConstraint := Some (region meta) |}).
Proof.
  rewrite run_Create. unfold CreateBucket_spec. simpl.
  match goal with
  | |- context [respond ?r g] => destruct (respond r g) as [[o|e] g1]
  end; simpl;
    (eexists; eexists; split; [reflexivity|]; simpl;
     case_decide; repeat split; try congruence; tauto).
Qed.

(** C3: Update runs the tag reconciler, then the website reconciler, then
    Read.  The first of them that returns an error ends Update with that
    error, and nothing of the later ones is run: the requests sent are
    those of the sub-steps that ran, in that order. *)
Theorem update_order_fail_fast
    (meta : AWSClient) (d : ResourceData) (g : G) :
  let tagsOut := exec (setTagsS3 d) g in
  let webOut := exec (updateWebsite tagsOut.1.1.2) tagsOut.1.2 in
  let readOut := exec (Read meta webOut.1.1.2) webOut.1.2 in
  let out := exec (Update meta d) g in
  (forall e, tagsOut.1.1.1 = Err e -> out = tagsOut) /\
  (tagsOut.1.1.1 = Ok tt ->
     forall e, webOut.1.1.1 = Err e ->
     out = (webOut.1.1, webOut.1.2, tagsOut.2 ++ webOut.2)) /\
  (tagsOut.1.1.1 = Ok tt -> webOut.1.1.1 = Ok tt ->
     out = (readOut.1.1, readOut.1.2, tagsOut.2 ++ webOut.2 ++ readOut.2) /\
     exists action rest,
       out.2 = tagsOut.2 ++
               website_request (bucket tagsOut.1.1.2) action ::
               HeadBucket (Some (Id tagsOut.1.1.2)) :: rest).
Proof.
  cbv zeta. rewrite run_Update. cbv zeta.
  destruct (exec (setTagsS3 d) g) as [[[rt d1] g1] t1]. cbn [fst snd].
  rewrite run_updateWebsite. cbv zeta. cbn [fst snd].
  set (action :=
    ReconcileWebsite_spec (website d1) (index_document d1) (error_document d1)).
  destruct (respond (website_request (bucket d1) action) g1) as [[ow|ew] g2];
    cbn [fst snd].
  - split; [by intros e ->|]. split; [by intros -> e He|].
    intros -> _. split; [reflexivity|].
    rewrite run_Read. cbv zeta.
    destruct (respond (HeadBucket (Some (Id d1))) g2) as [[oh|eh] g3]; simpl;
      [|destruct (isStatus404 eh)]; simpl; by eexists; eexists.
  - split; [by intros e ->|]. split; [by intros -> e He|].
    by intros -> He.
Qed.

(** C4: the website reconciler sends exactly one request, and which one is
    a function of the three fields alone, whatever the gateway and its
    state: with [website] set, one put of a configuration that has the
    index suffix iff [index_document] is not empty and the error key iff
    [error_document] is not empty (an empty configuration when both are
    empty); otherwise one delete. *)
Theorem updateWebsite_action (d : ResourceData) (g : G) :
  let action :=
    ReconcileWebsite_spec (website d) (index_document d) (error_document d) in
  (exec (updateWebsite d) g).2 = [website_request (bucket d) action] /\
  (exec (updateWebsite d) g).1.1.2 = d /\
  (website d = true ->
     exists conf,
       (exec (updateWebsite d) g).2 =
         [PutBucketWebsite {| pw_Bucket := Some (bucket d);
                              pw_WebsiteConfiguration := Some conf |}] /\
       (wc_IndexDocument conf <> None <-> index_document d <> EmptyString) /\
       (wc_IndexDocument conf <> None ->
          wc_IndexDocument conf = Some {| Suffix := Some (index_document d) |}) /\
       (wc_ErrorDocument conf <> None <-> error_document d <> EmptyString) /\
       (wc_ErrorDocument conf <> None ->
          wc_ErrorDocument conf = Some {| Key := Some (error_document d) |})) /\
  (website d = false ->
     (exec (updateWebsite d) g).2 = [DeleteBucketWebsite (Some (bucket d))]).
Proof.
  intros action. subst action. rewrite run_updateWebsite. simpl.
  split; [reflexivity|]. split; [reflexivity|].
  unfold ReconcileWebsite_spec, nonempty. split; intros ->; simpl.
  - eexists. split; [reflexivity|]. simpl.
    repeat case_decide; simpl; repeat split; try congruence; tauto.
  - reflexivity.
Qed.

(** C5: when the CreateBucket request succeeds, Create sets the identity
    to the bucket name and hands over to Update: what Create returns, and
    the record and the gateway it leaves, are those of that Update. *)
Theorem create_success_then_update
    (meta : AWSClient) (d : ResourceData) (g g1 : G)
    (o : S3Output (CreateBucket_spec (region meta) (bucket d) (acl d))) :
  respond (CreateBucket_spec (region meta) (bucket d) (acl d)) g = (Ok o, g1) ->
  let d1 := with_Id (bucket d) d in
  let upd := exec (Update meta d1) g1 in
  Id d1 = bucket d /\
  exec (Create meta d) g =
    (upd.1.1, upd.1.2,
     CreateBucket_spec (region meta) (bucket d) (acl d) :: upd.2).
Proof.
  intros H d1 upd. split; [reflexivity|].
  rewrite run_Create. simpl. by rewrite H.
Qed.

(** C6, as the code has it: when the CreateBucket request fails, Create
    returns an error whose message is "Error creating S3 bucket: "
    followed by the message of the cause; the bucket name is not part of
    it.  No identity is assigned: the record is unchanged, and no other
    request is sent. *)
Theorem create_failure_wraps_cause
    (meta : AWSClient) (d : ResourceData) (g g1 : G) (err : error) :
  respond (CreateBucket_spec (region meta) (bucket d) (acl d)) g = (Err err, g1) ->
  exec (Create meta d) g =
    ((Err (Errorf_creating err), d), g1,
     [CreateBucket_spec (region meta) (bucket d) (acl d)]) /\
  Error (Errorf_creating err) = "Error creating S3 bucket: " +:+ Error err /\
  mentions (Error err) (Error (Errorf_creating err)) = true.
Proof.
  intros H. rewrite run_Create. cbv zeta. rewrite H. cbn [fst snd].
  split; [reflexivity|]. split; [reflexivity|].
  apply Errorf_creating_mentions.
Qed.

(** C7: Delete sends exactly one request, DeleteBucket for the identity;
    it returns the error of the gateway as it is, whatever it is, and
    [nil] when the gateway succeeds; the record is left as it was. *)
Theorem delete_one_request_verbatim
    (meta : AWSClient) (d : ResourceData) (g : G) :
  let request := DeleteBucket (Some (Id d)) in
  let answer := respond request g in
  let out := exec (Delete meta d) g in
  out.2 = [request] /\
  err_of out.1.1.1 = err_of answer.1 /\
  out.1.1.2 = d /\
  out.1.2 = answer.2.
Proof.
  intros request answer out. subst out. rewrite run_Delete. simpl.
  fold request. fold answer. by destruct answer as [[o|e] g1].
Qed.

(** C8, as the code has it: no lifecycle function checks the identity
    before it acts.  Delete with an empty identity sends DeleteBucket for
    the empty name and returns what the gateway answers; Update with an
    empty identity runs its sub-steps as ever, and succeeds when they do;
    Create with an identity already assigned sends CreateBucket and, when
    that succeeds, replaces the identity by the bucket name and goes on
    with Update. *)
Theorem lifecycle_checks_no_identity_precondition
    (meta : AWSClient) (d : ResourceData) (g : G) :
  (Id d = EmptyString ->
     let answer := respond (DeleteBucket (Some EmptyString)) g in
     (exec (Delete meta d) g).2 = [DeleteBucket (Some EmptyString)] /\
     err_of (exec (Delete meta d) g).1.1.1 = err_of answer.1) /\
  (Id d = EmptyString ->
     let tagsOut := exec (setTagsS3 d) g in
     let webOut := exec (updateWebsite tagsOut.1.1.2) tagsOut.1.2 in
     let readOut := exec (Read meta webOut.1.1.2) webOut.1.2 in
     tagsOut.1.1.1 = Ok tt -> webOut.1.1.1 = Ok tt ->
     (exec (Update meta d) g).1.1 = readOut.1.1) /\
  (Id d <> EmptyString ->
     let request := CreateBucket_spec (region meta) (bucket d) (acl d) in
     forall o g1, respond request g = (Ok o, g1) ->
     (exec (Create meta d) g).1.1 =
     (exec (Update meta (with_Id (bucket d) d)) g1).1.1).
Proof.
  repeat split.
  - rewrite run_Delete. by rewrite H.
  - rewrite run_Delete, H. simpl.
    by destruct (respond (DeleteBucket (Some EmptyString)) g) as [[o|e] g1].
  - intros _ tagsOut webOut readOut Ht Hw. rewrite run_Update. cbv zeta.
    subst tagsOut webOut readOut. by rewrite Ht, Hw.
  - intros _ request o g1 H. rewrite run_Create. cbv zeta.
    subst request. by rewrite H.
Qed.

(** C10: when the existence check of Read returns the not-found status,
    the tag fetch that follows is made for the empty identity, the one
    that Read has just written, and not for the identity Read was called
    with. *)
Theorem read_not_found_fetches_tags_of_empty_identity
    (meta : AWSClient) (d : ResourceData) (g g1 : G) (err : error) :
  respond (HeadBucket (Some (Id d))) g = (Err err, g1) ->
  isStatus404 err = true ->
  let fetch := exec (getTagSetS3 EmptyString) g1 in
  exec (Read meta d) g =
    (match fetch.1.1 with
     | Ok tagSet =>
         (Ok tt, with_tags (tagsToMapS3 tagSet) (with_Id EmptyString d))
     | Err e => (Err e, with_Id EmptyString d)
     end, fetch.1.2, HeadBucket (Some (Id d)) :: fetch.2).
Proof.
  intros H H404 fetch. rewrite run_Read. cbv zeta. rewrite H. simpl.
  by rewrite H404.
Qed.

End Properties.

(** ** Read and the record *)

Lemma read_writes_tags_and_identity
    (getTagSetS3 : string -> S3Prog (result (list Tag)))
    (tagsToMapS3 : list Tag -> gmap string string)
    {G : Type}
    (respond : forall r : S3Request, G -> result (S3Output r) * G)
    (meta : AWSClient) (d : ResourceData) (g : G) :
  let request := HeadBucket (Some (Id d)) in
  let d' :=
    (run respond (resourceAwsS3BucketRead getTagSetS3 tagsToMapS3 meta d) g).1.1.2 in
  (bucket d' = bucket d /\ acl d' = acl d /\ website d' = website d /\
   index_document d' = index_document d /\
   error_document d' = error_document d) /\
  (Id d' = Id d \/
   Id d' = EmptyString /\
   exists err, (respond request g).1 = Err err /\ isStatus404 err = true) /\
  (tags d' = tags d \/
   exists tagSet,
     (run respond (getTagSetS3 (Id d')) (respond request g).2).1.1 = Ok tagSet /\
     tags d' = tagsToMapS3 tagSet).
Proof.
  cbv zeta. rewrite run_Read. cbv zeta. unfold read_tags.
  destruct (respond (HeadBucket (Some (Id d))) g) as [[o|err] g1];
    cbn [fst snd].
  - destruct (run respond (getTagSetS3 (Id d)) g1) as [[[ts|e] g2] t] eqn:E;
      cbn [fst snd].
    + split; [by repeat split|]. split; [by left|].
      right. exists ts. cbn [with_tags Id tags]. by rewrite E.
    + split; [by repeat split|]. split; by left.
  - destruct (isStatus404 err) eqn:E404; cbn [fst snd].
    + destruct (run respond (getTagSetS3 (Id (with_Id EmptyString d))) g1)
        as [[[ts|e] g2] t] eqn:E; cbn [fst snd].
      * split; [by repeat split|].
        split; [right; split; [reflexivity | by exists err]|].
        right. exists ts. cbn [with_tags with_Id Id tags].
        cbn [with_Id Id] in E. by rewrite E.
      * split; [by repeat split|].
        split; [right; split; [reflexivity | by exists err]|]. by left.
    + split; [by repeat split|]. split; by left.
Qed.

Lemma read_determined_by_answers
    (getTagSetS3 : string -> S3Prog (result (list Tag)))
    (tagsToMapS3 : list Tag -> gmap string string)
    {G G' : Type}
    (respond : forall r : S3Request, G -> result (S3Output r) * G)
    (respond' : forall r : S3Request, G' -> result (S3Output r) * G')
    (meta : AWSClient) (d : ResourceData) (g : G) (g' : G') :
  let Read := resourceAwsS3BucketRead getTagSetS3 tagsToMapS3 in
  let request := HeadBucket (Some (Id d)) in
  (respond request g).1 = (respond' request g').1 ->
  (forall id,
     (run respond (getTagSetS3 id) (respond request g).2).1.1 =
     (run respond' (getTagSetS3 id) (respond' request g').2).1.1) ->
  (run respond (Read meta d) g).1.1 = (run respond' (Read meta d) g').1.1.
Proof.
  cbv zeta. intros Hhead Hfetch. rewrite !run_Read. cbv zeta.
  unfold read_tags. rewrite <- Hhead.
  destruct (respond (HeadBucket (Some (Id d))) g).1 as [o|err];
    [|destruct (isStatus404 err)]; cbn [fst snd]; by rewrite ?Hfetch.
Qed.

(** C9: Read writes nothing but the tags (the converted result of the tag
    fetch) and, when the existence check returned the not-found status,
    the identity, which it clears; the name, the access policy and the
    three website fields are as before.  Its result and the record it
    leaves are determined by the answers of the gateway: two gateways that
    answer the existence check and the tag fetch alike lead to the same
    result and the same record. *)
Theorem read_frame_deterministic
    (getTagSetS3 : string -> S3Prog (result (list Tag)))
    (tagsToMapS3 : list Tag -> gmap string string)
    {G G' : Type}
    (respond : forall r : S3Request, G -> result (S3Output r) * G)
    (respond' : forall r : S3Request, G' -> result (S3Output r) * G')
    (meta : AWSClient) (d : ResourceData) (g : G) (g' : G') :
  let Read := resourceAwsS3BucketRead getTagSetS3 tagsToMapS3 in
  let request := HeadBucket (Some (Id d)) in
  let out := run respond (Read meta d) g in
  let d' := out.1.1.2 in
  (bucket d' = bucket d /\ acl d' = acl d /\ website d' = website d /\
   index_document d' = index_document d /\
   error_document d' = error_document d) /\
  (Id d' = Id d \/
   Id d' = EmptyString /\
   exists err, (respond request g).1 = Err err /\ isStatus404 err = true) /\
  (tags d' = tags d \/
   exists tagSet,
     (run respond (getTagSetS3 (Id d')) (respond request g).2).1.1 = Ok tagSet /\
     tags d' = tagsToMapS3 tagSet) /\
  ((respond request g).1 = (respond' request g').1 ->
   (forall id,
      (run respond (getTagSetS3 id) (respond request g).2).1.1 =
      (run respond' (getTagSetS3 id) (respond' request g').2).1.1) ->
   out.1.1 = (run respond' (Read meta d) g').1.1).
Proof.
  cbv zeta.
  pose proof (read_writes_tags_and_identity getTagSetS3 tagsToMapS3 respond
                meta d g) as (Hframe & Hid & Htags).
  repeat split; try apply Hframe; try assumption.
  apply read_determined_by_answers.
Qed.

(** * The claims on concrete runs

    The runs use the scripted gateway and the tag helpers written after
    the specification. *)

(** C1 on a run: a bucket reported as not found, then one refused. *)
Lemma read_classifies_existence_check_witness :
  scripted (HeadBucket (Some (Id b1_created))) [Failure notFound]
    = (Err notFound, []) /\
  Id (run scripted (Read_spec us_east_1 b1_created) [Failure notFound]).1.1.2
    = EmptyString /\
  scripted (HeadBucket (Some (Id b1_created))) [Failure denied]
    = (Err denied, []) /\
  run scripted (Read_spec us_east_1 b1_created) [Failure denied]
    = ((Err (Errorf_reading "b1" denied), b1_created), [],
       [HeadBucket (Some "b1")]).
Proof.
  split; [reflexivity|]. split.
  - exact (proj1 (read_classifies_existence_check
                    getTagSetS3_spec tagsToMapS3_spec scripted us_east_1
                    b1_created [Failure notFound] [] notFound eq_refl)).
  - split; [reflexivity|].
    exact (proj1 (read_classifies_existence_check
                    getTagSetS3_spec tagsToMapS3_spec scripted us_east_1
                    b1_created [Failure denied] [] denied eq_refl)).
Defined.

(** C2 on a run: Create in eu-west-1 states the region. *)
Lemma create_location_constraint_witness :
  region eu_west_1 <> "us-east-1" /\
  exists input rest,
    (run scripted (Create_spec eu_west_1 b1) []).2 = CreateBucket input :: rest /\
    cb_CreateBucketConfiguration input =
      Some {| LocationConstraint := Some "eu-west-1" |}.
Proof.
  assert (N : region eu_west_1 <> "us-east-1") by discriminate.
  split; [exact N|].
  destruct (create_location_constraint
              setTagsS3_spec getTagSetS3_spec tagsToMapS3_spec scripted
              eu_west_1 b1 [])
    as (input & rest & Hsent & _ & _ & _ & _ & Hset).
  exists input, rest. split; [exact Hsent | exact (Hset N)].
Defined.

(** C3 on a run: the website request is refused after the tags were put,
    and Read is not reached. *)
Lemma update_order_fail_fast_witness :
  let script := [Success []; Failure denied] in
  let tagsOut := run scripted (setTagsS3_spec b1_created) script in
  let webOut := run scripted (updateWebsite tagsOut.1.1.2) tagsOut.1.2 in
  tagsOut.1.1.1 = Ok tt /\
  webOut.1.1.1 = Err (Errorf_putting_website denied) /\
  run scripted (Update_spec us_east_1 b1_created) script
    = (webOut.1.1, webOut.1.2, tagsOut.2 ++ webOut.2).
Proof.
  cbv zeta. split; [reflexivity|]. split; [reflexivity|].
  exact (proj1 (proj2 (update_order_fail_fast
                         setTagsS3_spec getTagSetS3_spec tagsToMapS3_spec
                         scripted us_east_1 b1_created
                         [Success []; Failure denied]))
           eq_refl (Errorf_putting_website denied) eq_refl).
Defined.

(** C4 on a run: the website of the example has an index suffix and no
    error key. *)
Lemma updateWebsite_action_witness :
  website b1 = true /\
  exists conf,
    (run scripted (updateWebsite b1) [Failure denied]).2 =
      [PutBucketWebsite {| pw_Bucket := Some "b1";
                           pw_WebsiteConfiguration := Some conf |}] /\
    (wc_IndexDocument conf <> None <-> index_document b1 <> EmptyString) /\
    (wc_ErrorDocument conf <> None <-> error_document b1 <> EmptyString).
Proof.
  split; [reflexivity|].
  destruct (proj1 (proj2 (proj2 (updateWebsite_action scripted b1
                                   [Failure denied]))) eq_refl)
    as (conf & Hsent & Hindex & _ & Herror & _).
  exists conf. split; [exact Hsent|]. split; [exact Hindex | exact Herror].
Defined.

(** C5 on a run: Create of the example in the default region. *)
Lemma create_success_then_update_witness :
  scripted (CreateBucket_spec (region us_east_1) (bucket b1) (acl b1)) []
    = (Ok tt, []) /\
  Id (with_Id (bucket b1) b1) = bucket b1 /\
  run scripted (Create_spec us_east_1 b1) [] =
    let upd := run scripted (Update_spec us_east_1 (with_Id (bucket b1) b1)) [] in
    (upd.1.1, upd.1.2,
     CreateBucket_spec (region us_east_1) (bucket b1) (acl b1) :: upd.2).
Proof.
  split; [reflexivity|].
  exact (create_success_then_update
           setTagsS3_spec getTagSetS3_spec tagsToMapS3_spec scripted
           us_east_1 b1 [] [] tt eq_refl).
Defined.

(** C6 on a run: the provider refuses the creation. *)
Lemma create_failure_wraps_cause_witness :
  scripted (CreateBucket_spec (region eu_west_1) (bucket b1) (acl b1))
    [Failure denied] = (Err denied, []) /\
  run scripted (Create_spec eu_west_1 b1) [Failure denied] =
    ((Err (Errorf_creating denied), b1), [],
     [CreateBucket_spec (region eu_west_1) (bucket b1) (acl b1)]).
Proof.
  split; [reflexivity|].
  exact (proj1 (create_failure_wraps_cause
                  setTagsS3_spec getTagSetS3_spec tagsToMapS3_spec scripted
                  eu_west_1 b1 [Failure denied] [] denied eq_refl)).
Defined.

(** C6 as the claim words it fails: the error of a refused creation of
    the bucket b1 does not hold the name b1. *)
Lemma create_failure_error_omits_bucket_name :
  ~ (forall e,
       (run scripted (Create_spec eu_west_1 b1) [Failure denied]).1.1.1 = Err e ->
       mentions (bucket b1) (Error e) = true /\
       mentions (Error denied) (Error e) = true).
Proof.
  intros H.
  destruct (H (errorString "Error creating S3 bucket: Access Denied") eq_refl)
    as [Hname _].
  vm_compute in Hname. discriminate Hname.
Qed.

(** C8 as the claim words it fails: with a gateway that accepts every
    request, Delete and Update without an identity and Create with an
    identity all return [nil]. *)
Lemma identity_precondition_not_checked :
  Id b1 = EmptyString /\ Id b1_created <> EmptyString /\
  ~ (exists e, (run scripted (resourceAwsS3BucketDelete us_east_1 b1) []).1.1.1
               = Err e) /\
  ~ (exists e, (run scripted (Update_spec us_east_1 b1) []).1.1.1 = Err e) /\
  ~ (exists e, (run scripted (Create_spec us_east_1 b1_created) []).1.1.1
               = Err e).
Proof.
  split; [reflexivity|]. split; [discriminate|].
  repeat split; intros [e He]; vm_compute in He; discriminate He.
Qed.

(** C8 on a run: Delete without an identity addresses the empty name, and
    Create over an identity goes on to Update. *)
Lemma lifecycle_checks_no_identity_precondition_witness :
  Id b1 = EmptyString /\
  (run scripted (resourceAwsS3BucketDelete us_east_1 b1) []).2
    = [DeleteBucket (Some EmptyString)] /\
  Id (with_Id "b0" b1) <> EmptyString /\
  (run scripted (Create_spec us_east_1 (with_Id "b0" b1)) []).1.1 =
  (run scripted (Update_spec us_east_1 (with_Id "b1" (with_Id "b0" b1))) []).1.1.
Proof.
  assert (N : Id (with_Id "b0" b1) <> EmptyString) by discriminate.
  split; [reflexivity|]. split.
  - exact (proj1 (proj1 (lifecycle_checks_no_identity_precondition
                           setTagsS3_spec getTagSetS3_spec tagsToMapS3_spec
                           scripted us_east_1 b1 []) eq_refl)).
  - split; [exact N|].
    exact (proj2 (proj2 (lifecycle_checks_no_identity_precondition
                           setTagsS3_spec getTagSetS3_spec tagsToMapS3_spec
                           scripted us_east_1 (with_Id "b0" b1) []))
             N tt [] eq_refl).
Defined.

(** C9 on a run: two gateways, the second with a reply to spare, answer
    Read alike. *)
Lemma read_frame_deterministic_witness :
  let tagSet := [{| tag_Key := "env"; tag_Value := "prod" |}] in
  let g := [Failure notFound; Success tagSet] in
  let g' := [Failure notFound; Success tagSet; Failure denied] in
  (scripted (HeadBucket (Some (Id b1_created))) g).1 =
  (scripted (HeadBucket (Some (Id b1_created))) g').1 /\
  (run scripted (Read_spec us_east_1 b1_created) g).1.1 =
  (run scripted (Read_spec us_east_1 b1_created) g').1.1.
Proof.
  cbv zeta. split; [reflexivity|].
  exact (proj2 (proj2 (proj2 (read_frame_deterministic
                                getTagSetS3_spec tagsToMapS3_spec
                                scripted scripted us_east_1 b1_created
                                [Failure notFound;
                                 Success [{| tag_Key := "env";
                                             tag_Value := "prod" |}]]
                                [Failure notFound;
                                 Success [{| tag_Key := "env";
                                             tag_Value := "prod" |}];
                                 Failure denied])))
           eq_refl (fun id => eq_refl)).
Defined.

(** C10 on a run: after the not-found answer for b1 the tags are asked
    for the empty name. *)
Lemma read_not_found_fetches_tags_of_empty_identity_witness :
  scripted (HeadBucket (Some (Id b1_created))) [Failure notFound]
    = (Err notFound, []) /\
  isStatus404 notFound = true /\
  (run scripted (Read_spec us_east_1 b1_created) [Failure notFound]).2
    = [HeadBucket (Some "b1"); GetBucketTagging (Some EmptyString)].
Proof.
  split; [reflexivity|]. split; [reflexivity|].
  exact (f_equal snd
           (read_not_found_fetches_tags_of_empty_identity
              getTagSetS3_spec tagsToMapS3_spec scripted us_east_1
              b1_created [Failure notFound] [] notFound eq_refl eq_refl)).
Defined.

(** * The examples of the specification *)

(** Create-then-converge: in the default region Create sends CreateBucket
    without a location constraint, and Update follows: the tags are put,
    the website is put with the index suffix and no error key, and Read
    checks the bucket and fetches its tags; the identity is the name. *)
Example create_then_converge :
  let env_prod := {| tag_Key := "env"; tag_Value := "prod" |} in
  run scripted (Create_spec us_east_1 b1)
    [Success []; Success []; Success []; Success []; Success [env_prod]]
  = ((Ok tt, b1_created), [],
     [CreateBucket {| cb_Bucket := Some "b1"; cb_ACL := Some "private";
                      cb_CreateBucketConfiguration := None |};
      PutBucketTagging (Some "b1") [env_prod];
      PutBucketWebsite
        {| pw_Bucket := Some "b1";
           pw_WebsiteConfiguration :=
             Some {| wc_IndexDocument := Some {| Suffix := Some "index.html" |};
                     wc_ErrorDocument := None |} |};
      HeadBucket (Some "b1");
      GetBucketTagging (Some "b1")]).
Proof. vm_compute. reflexivity. Qed.

(** Disable website: one DeleteBucketWebsite and no PutBucketWebsite. *)
Example disable_website :
  let d :=
    {| Id := "b1"; bucket := "b1"; acl := "private"; website := false;
       index_document := "index.html"; error_document := EmptyString;
       tags := ∅ |} in
  (run scripted (Update_spec us_east_1 d) []).2
  = [PutBucketTagging (Some "b1") [];
     DeleteBucketWebsite (Some "b1");
     HeadBucket (Some "b1");
     GetBucketTagging (Some "b1")].
Proof. vm_compute. reflexivity. Qed.

(** Delete: one DeleteBucket, and success when the gateway succeeds. *)
Example delete_existing :
  run scripted (resourceAwsS3BucketDelete us_east_1 b1_created) []
  = ((Ok tt, b1_created), [], [DeleteBucket (Some "b1")]).
Proof. vm_compute. reflexivity. Qed.

(** A 404 that is not an [aws.APIError] is not the not-found status. *)
Example plain_error_is_not_not_found :
  isStatus404 (errorString "404 Not Found") = false.
Proof. reflexivity. Qed.

(** * Further properties of the lifecycle functions *)

Section Further.

Variable setTagsS3 : M unit.
Variable getTagSetS3 : string -> S3Prog (result (list Tag)).
Variable tagsToMapS3 : list Tag -> gmap string string.

Context {G : Type}.
Variable respond : forall r : S3Request, G -> result (S3Output r) * G.

Local Abbreviation Read := (resourceAwsS3BucketRead getTagSetS3 tagsToMapS3).
Local Abbreviation Update := (resourceAwsS3BucketUpdate setTagsS3 getTagSetS3 tagsToMapS3).
Local Abbreviation Create := (resourceAwsS3BucketCreate setTagsS3 getTagSetS3 tagsToMapS3).
Local Abbreviation exec := (run respond).

(** X1: when its request is refused, the website reconciler returns a new
    error whose message is the operation ("Error putting S3 website: " or
    "Error deleting S3 website: ") followed by the message of the cause.
    The new error is a plain one: the status code of the cause is gone,
    a 404 included.  The record is not touched. *)
Theorem updateWebsite_failure_annotated
    (d : ResourceData) (g g1 : G) (err : error) :
  let action :=
    ReconcileWebsite_spec (website d) (index_document d) (error_document d) in
  respond (website_request (bucket d) action) g = (Err err, g1) ->
  exists e,
    exec (updateWebsite d) g =
      ((Err e, d), g1, [website_request (bucket d) action]) /\
    Error e =
      (if website d then "Error putting S3 website: "
       else "Error deleting S3 website: ") +:+ Error err /\
    mentions (Error err) (Error e) = true /\
    isStatus404 e = false.
Proof.
  intros action H. exists (website_error action err).
  rewrite run_updateWebsite. cbv zeta. fold action. rewrite H. cbn [fst snd].
  split; [reflexivity|].
  subst action. unfold ReconcileWebsite_spec.
  destruct (website d); cbn [website_error];
    (split; [reflexivity|]; split; [|reflexivity]).
  - unfold Errorf_putting_website, Error at 2.
    apply mentions_app_r, mentions_self.
  - unfold Errorf_deleting_website, Error at 2.
    apply mentions_app_r, mentions_self.
Qed.

(** X2: when the existence check succeeds, Read keeps the identity and
    fetches the tags of that identity.  A fetched tag set is converted
    and written to the record; a failure of the fetch is returned as it
    is, and the record is left as it was. *)
Theorem read_existing_bucket
    (meta : AWSClient) (d : ResourceData) (g g1 : G)
    (o : S3Output (HeadBucket (Some (Id d)))) :
  respond (HeadBucket (Some (Id d))) g = (Ok o, g1) ->
  let fetch := exec (getTagSetS3 (Id d)) g1 in
  exec (Read meta d) g =
    (match fetch.1.1 with
     | Ok tagSet => (Ok tt, with_tags (tagsToMapS3 tagSet) d)
     | Err e => (Err e, d)
     end, fetch.1.2, HeadBucket (Some (Id d)) :: fetch.2).
Proof.
  intros H fetch. rewrite run_Read. cbv zeta. rewrite H. reflexivity.
Qed.

(** When Read returns [nil]. *)
Lemma run_Read_nil_iff (meta : AWSClient) (d : ResourceData) (g : G) :
  let head := respond (HeadBucket (Some (Id d))) g in
  let id1 := match head.1 with Ok _ => Id d | Err _ => EmptyString end in
  let fetch := exec (getTagSetS3 id1) head.2 in
  (exec (Read meta d) g).1.1.1 = Ok tt <->
  match head.1 with Ok _ => True | Err err => isStatus404 err = true end /\
  err_of fetch.1.1 = None.
Proof.
  cbv zeta. rewrite run_Read. cbv zeta. unfold read_tags.
  destruct (respond (HeadBucket (Some (Id d))) g) as [[o|err] g1];
    cbn [fst snd].
  - destruct (exec (getTagSetS3 (Id d)) g1) as [[[ts|e] g2] t];
      cbn [fst snd err_of]; split; try done; intros [_ ?]; done.
  - destruct (isStatus404 err); cbn [fst snd].
    + cbn [with_Id Id].
      destruct (exec (getTagSetS3 EmptyString) g1) as [[[ts|e] g2] t];
        cbn [fst snd err_of]; split; try done; intros [_ ?]; done.
    + split; [done | intros [? _]; done].
Qed.

(** X3: Read returns [nil] exactly when the existence check succeeded or
    reported the status 404, and the tag fetch that follows (for the
    identity, or for the empty name after a 404) succeeded. *)
Theorem read_succeeds_iff (meta : AWSClient) (d : ResourceData) (g : G) :
  let head := respond (HeadBucket (Some (Id d))) g in
  let id1 := match head.1 with Ok _ => Id d | Err _ => EmptyString end in
  let fetch := exec (getTagSetS3 id1) head.2 in
  (exec (Read meta d) g).1.1.1 = Ok tt <->
  match head.1 with Ok _ => True | Err err => isStatus404 err = true end /\
  err_of fetch.1.1 = None.
Proof.
  cbv zeta. rewrite run_Read. cbv zeta. unfold read_tags.
  destruct (respond (HeadBucket (Some (Id d))) g) as [[o|err] g1];
    cbn [fst snd].
  - destruct (exec (getTagSetS3 (Id d)) g1) as [[[ts|e] g2] t];
      cbn [fst snd err_of]; split; try done; intros [_ ?]; done.
  - destruct (isStatus404 err); cbn [fst snd].
    + cbn [with_Id Id].
      destruct (exec (getTagSetS3 EmptyString) g1) as [[[ts|e] g2] t];
        cbn [fst snd err_of]; split; try done; intros [_ ?]; done.
    + split; [done | intros [? _]; done].
Qed.

(** X4: Create never looks at the identity the record holds: whatever it
    is, Create sends the same requests and returns the same result, and
    when CreateBucket succeeds the record it leaves is the same too, the
    old identity having been replaced. *)
Theorem create_ignores_previous_identity
    (meta : AWSClient) (d : ResourceData) (v : string) (g : G) :
  let out := exec (Create meta d) g in
  let out' := exec (Create meta (with_Id v d)) g in
  out'.1.1.1 = out.1.1.1 /\ out'.1.2 = out.1.2 /\ out'.2 = out.2 /\
  (forall o g1,
     respond (CreateBucket_spec (region meta) (bucket d) (acl d)) g = (Ok o, g1) ->
     out' = out).
Proof.
  cbv zeta. rewrite !run_Create. cbv zeta. cbn [with_Id bucket acl].
  change (with_Id (bucket d) (with_Id v d)) with (with_Id (bucket d) d).
  destruct (respond (CreateBucket_spec (region meta) (bucket d) (acl d)) g)
    as [[o|err] g1]; cbn [fst snd].
  - repeat split; reflexivity.
  - repeat split; intros; discriminate.
Qed.

(** X5: whatever happens, Update leaves the name, the access policy and
    the three website fields as the tag reconciler left them, and the
    identity is the one the tag reconciler left or the empty one. *)
Theorem update_keeps_desired_fields
    (meta : AWSClient) (d : ResourceData) (g : G) :
  let d1 := (exec (setTagsS3 d) g).1.1.2 in
  let d' := (exec (Update meta d) g).1.1.2 in
  bucket d' = bucket d1 /\ acl d' = acl d1 /\ website d' = website d1 /\
  index_document d' = index_document d1 /\
  error_document d' = error_document d1 /\
  (Id d' = Id d1 \/ Id d' = EmptyString).
Proof.
  cbv zeta. rewrite run_Update. cbv zeta.
  destruct (exec (setTagsS3 d) g) as [[[rt d1] g1] t1]. cbn [fst snd].
  destruct rt as [[]|e]; [|by repeat split; try left].
  rewrite run_updateWebsite. cbv zeta. cbn [fst snd].
  match goal with
  | |- context [respond ?r g1] => destruct (respond r g1) as [[ow|ew] g2]
  end; cbn [fst snd]; [|by repeat split; try left].
  pose proof (read_writes_tags_and_identity getTagSetS3 tagsToMapS3 respond
                meta d1 g2) as ((Hb & Ha & Hw & Hi & He) & Hid & _).
  cbv zeta in Hb, Ha, Hw, Hi, He, Hid.
  repeat split; try assumption.
  destruct Hid as [Hid | [Hid _]]; [by left | by right].
Qed.

(** X6: a bucket that is reported missing right after its creation.  When
    CreateBucket, the tag reconciler and the website request succeed, the
    existence check reports 404 and the tag fetch succeeds, Create
    returns [nil] and leaves a record without identity. *)
Theorem create_vanished_bucket
    (meta : AWSClient) (d d2 : ResourceData) (g g1 g2 g3 g4 g5 : G)
    (t2 t5 : list S3Request) (err : error) (tagSet : list Tag)
    (o : S3Output (CreateBucket_spec (region meta) (bucket d) (acl d)))
    (ow : S3Output
            (website_request (bucket d2)
               (ReconcileWebsite_spec (website d2) (index_document d2)
                  (error_document d2)))) :
  let create := CreateBucket_spec (region meta) (bucket d) (acl d) in
  let web :=
    website_request (bucket d2)
      (ReconcileWebsite_spec (website d2) (index_document d2)
         (error_document d2)) in
  respond create g = (Ok o, g1) ->
  exec (setTagsS3 (with_Id (bucket d) d)) g1 = ((Ok tt, d2), g2, t2) ->
  respond web g2 = (Ok ow, g3) ->
  respond (HeadBucket (Some (Id d2))) g3 = (Err err, g4) ->
  isStatus404 err = true ->
  exec (getTagSetS3 EmptyString) g4 = (Ok tagSet, g5, t5) ->
  exec (Create meta d) g =
    ((Ok tt, with_tags (tagsToMapS3 tagSet) (with_Id EmptyString d2)), g5,
     create :: t2 ++ web :: HeadBucket (Some (Id d2)) :: t5) /\
  Id (with_tags (tagsToMapS3 tagSet) (with_Id EmptyString d2)) = EmptyString.
Proof.
  intros create web Hc Ht Hw Hh H404 Hf. split; [|reflexivity].
  rewrite run_Create. cbv zeta. fold create. rewrite Hc. cbn [fst snd].
  rewrite run_Update. cbv zeta. rewrite Ht. cbn [fst snd].
  rewrite run_updateWebsite. cbv zeta. fold web. rewrite Hw. cbn [fst snd].
  rewrite run_Read. cbv zeta. rewrite Hh. cbn [fst snd]. rewrite H404.
  unfold read_tags. cbn [with_Id Id]. rewrite Hf. reflexivity.
Qed.

(** X7: the website reconciler addresses the bucket by the name field of
    the record, not by the identity, and reads nothing but the name and
    the three website fields: two records that agree on these four lead
    to the same request, the same result and the same gateway state,
    whatever their identity, access policy and tags. *)
Theorem updateWebsite_reads_name_and_website_fields
    (d1 d2 : ResourceData) (g : G) :
  bucket d1 = bucket d2 ->
  website d1 = website d2 ->
  index_document d1 = index_document d2 ->
  error_document d1 = error_document d2 ->
  let o1 := exec (updateWebsite d1) g in
  let o2 := exec (updateWebsite d2) g in
  o1.1.1.1 = o2.1.1.1 /\ o1.1.2 = o2.1.2 /\ o1.2 = o2.2.
Proof.
  intros Hb Hw Hi He. cbv zeta. rewrite !run_updateWebsite. cbv zeta.
  rewrite Hb, Hw, Hi, He. repeat split; reflexivity.
Qed.

(** X8: Update returns [nil] exactly when the tag reconciler succeeded,
    the website request succeeded, the existence check succeeded or
    reported 404, and the tag fetch succeeded.  A bucket that is reported
    missing does not make Update fail. *)
Theorem update_succeeds_iff (meta : AWSClient) (d : ResourceData) (g : G) :
  let tagsOut := exec (setTagsS3 d) g in
  let d1 := tagsOut.1.1.2 in
  let web :=
    respond
      (website_request (bucket d1)
         (ReconcileWebsite_spec (website d1) (index_document d1)
            (error_document d1))) tagsOut.1.2 in
  let head := respond (HeadBucket (Some (Id d1))) web.2 in
  let id1 := match head.1 with Ok _ => Id d1 | Err _ => EmptyString end in
  let fetch := exec (getTagSetS3 id1) head.2 in
  (exec (Update meta d) g).1.1.1 = Ok tt <->
  tagsOut.1.1.1 = Ok tt /\
  err_of web.1 = None /\
  match head.1 with Ok _ => True | Err err => isStatus404 err = true end /\
  err_of fetch.1.1 = None.
Proof.
  cbv zeta. rewrite run_Update. cbv zeta.
  destruct (exec (setTagsS3 d) g) as [[[rt d1] g1] t1]. cbn [fst snd].
  destruct rt as [[]|e]; [|split; [done | intros [? _]; done]].
  rewrite run_updateWebsite. cbv zeta. cbn [fst snd].
  match goal with
  | |- context [respond ?r g1] => destruct (respond r g1) as [[ow|ew] g2]
  end; cbn [fst snd err_of]; [|split; [done | intros (_ & ? & _); done]].
  pose proof (run_Read_nil_iff meta d1 g2) as HR. cbv zeta in HR.
  rewrite HR. tauto.
Qed.

(** X9: with [website] off, the index and the error document play no
    part: two records with the same name lead to the same delete request,
    the same result and the same gateway state, whatever their documents. *)
Theorem updateWebsite_disabled_ignores_documents
    (d1 d2 : ResourceData) (g : G) :
  website d1 = false ->
  website d2 = false ->
  bucket d1 = bucket d2 ->
  let o1 := exec (updateWebsite d1) g in
  let o2 := exec (updateWebsite d2) g in
  o1.2 = [DeleteBucketWebsite (Some (bucket d1))] /\
  o1.1.1.1 = o2.1.1.1 /\ o1.1.2 = o2.1.2 /\ o1.2 = o2.2.
Proof.
  intros H1 H2 Hb. cbv zeta. rewrite !run_updateWebsite. cbv zeta.
  rewrite H1, H2, Hb. repeat split; reflexivity.
Qed.

End Further.

(** ** The further properties on concrete runs *)

(** X1 on a run: the website of b1 is refused with the status 404. *)
Lemma updateWebsite_failure_annotated_witness :
  scripted
    (website_request (bucket b1)
       (ReconcileWebsite_spec (website b1) (index_document b1)
          (error_document b1)))
    [Failure notFound] = (Err notFound, []) /\
  exists e,
    (run scripted (updateWebsite b1) [Failure notFound]).1.1.1 = Err e /\
    Error e = "Error putting S3 website: Not Found" /\
    isStatus404 e = false.
Proof.
  split; [reflexivity|].
  destruct (updateWebsite_failure_annotated scripted b1 [Failure notFound] []
              notFound eq_refl) as (e & Hrun & Hmsg & _ & H404).
  exists e. split; [by rewrite Hrun|]. split; [exact Hmsg | exact H404].
Defined.

(** X2 on a run: Read of the created bucket b1. *)
Lemma read_existing_bucket_witness :
  let env_prod := {| tag_Key := "env"; tag_Value := "prod" |} in
  scripted (HeadBucket (Some (Id b1_created))) [Success []; Success [env_prod]]
    = (Ok tt, [Success [env_prod]]) /\
  (run scripted (Read_spec us_east_1 b1_created)
     [Success []; Success [env_prod]]).2
    = [HeadBucket (Some "b1"); GetBucketTagging (Some "b1")].
Proof.
  cbv zeta. split; [reflexivity|].
  exact (f_equal snd
           (read_existing_bucket getTagSetS3_spec tagsToMapS3_spec scripted
              us_east_1 b1_created
              [Success []; Success [{| tag_Key := "env"; tag_Value := "prod" |}]]
              [Success [{| tag_Key := "env"; tag_Value := "prod" |}]]
              tt eq_refl)).
Defined.

(** X3 on a run: Read of a bucket that is reported missing returns [nil]. *)
Lemma read_succeeds_iff_witness :
  isStatus404 notFound = true /\
  (run scripted (Read_spec us_east_1 b1_created) [Failure notFound]).1.1.1
    = Ok tt.
Proof.
  split; [reflexivity|].
  exact (proj2 (read_succeeds_iff getTagSetS3_spec tagsToMapS3_spec scripted
                  us_east_1 b1_created [Failure notFound])
           (conj eq_refl eq_refl)).
Defined.

(** X4 on a run: Create over a record that holds the identity b0. *)
Lemma create_ignores_previous_identity_witness :
  scripted (CreateBucket_spec (region us_east_1) (bucket b1) (acl b1)) []
    = (Ok tt, []) /\
  run scripted (Create_spec us_east_1 (with_Id "b0" b1)) []
    = run scripted (Create_spec us_east_1 b1) [].
Proof.
  split; [reflexivity|].
  exact (proj2 (proj2 (proj2 (create_ignores_previous_identity
                                setTagsS3_spec getTagSetS3_spec
                                tagsToMapS3_spec scripted us_east_1 b1 "b0"
                                [])))
           tt [] eq_refl).
Defined.

(** X6 on a run: b1 is created and then reported missing. *)
Lemma create_vanished_bucket_witness :
  let script :=
    [Success []; Success []; Success []; Failure notFound; Success []] in
  isStatus404 notFound = true /\
  (run scripted (Create_spec us_east_1 b1) script).1.1.1 = Ok tt /\
  Id (run scripted (Create_spec us_east_1 b1) script).1.1.2 = EmptyString.
Proof.
  cbv zeta. split; [reflexivity|].
  destruct (create_vanished_bucket
              setTagsS3_spec getTagSetS3_spec tagsToMapS3_spec scripted
              us_east_1 b1 b1_created
              [Success []; Success []; Success []; Failure notFound; Success []]
              [Success []; Success []; Failure notFound; Success []]
              [Success []; Failure notFound; Success []]
              [Failure notFound; Success []]
              [Success []]
              []
              [PutBucketTagging (Some "b1")
                 [{| tag_Key := "env"; tag_Value := "prod" |}]]
              [GetBucketTagging (Some EmptyString)]
              notFound [] tt tt
              eq_refl eq_refl eq_refl eq_refl eq_refl eq_refl)
    as [Hrun _].
  unfold Create_spec. rewrite Hrun. split; reflexivity.
Defined.

(** X7 on a run: b1 before and after its creation. *)
Lemma updateWebsite_reads_name_and_website_fields_witness :
  bucket b1 = bucket b1_created /\
  (run scripted (updateWebsite b1) []).2
    = (run scripted (updateWebsite b1_created) []).2.
Proof.
  split; [reflexivity|].
  exact (proj2 (proj2 (updateWebsite_reads_name_and_website_fields
                         scripted b1 b1_created []
                         eq_refl eq_refl eq_refl eq_refl))).
Defined.

(** X8 on a run: Update of b1 while it is reported missing returns
    [nil]. *)
Lemma update_succeeds_iff_witness :
  let script := [Success []; Success []; Failure notFound] in
  isStatus404 notFound = true /\
  (run scripted (Update_spec us_east_1 b1_created) script).1.1.1 = Ok tt.
Proof.
  cbv zeta. split; [reflexivity|].
  exact (proj2 (update_succeeds_iff
                  setTagsS3_spec getTagSetS3_spec tagsToMapS3_spec scripted
                  us_east_1 b1_created
                  [Success []; Success []; Failure notFound])
           (conj eq_refl (conj eq_refl (conj eq_refl eq_refl)))).
Defined.

(** X9 on a run: two buckets named b1 with the website off and different
    documents. *)
Lemma updateWebsite_disabled_ignores_documents_witness :
  let off1 :=
    {| Id := "b1"; bucket := "b1"; acl := "private"; website := false;
       index_document := "index.html"; error_document := "error.html";
       tags := ∅ |} in
  let off2 :=
    {| Id := "b1"; bucket := "b1"; acl := "private"; website := false;
       index_document := EmptyString; error_document := EmptyString;
       tags := ∅ |} in
  website off1 = false /\
  (run scripted (updateWebsite off1) [Failure denied]).1.1.1
    = (run scripted (updateWebsite off2) [Failure denied]).1.1.1.
Proof.
  cbv zeta. split; [reflexivity|].
  exact (proj1 (proj2 (updateWebsite_disabled_ignores_documents scripted
                         {| Id := "b1"; bucket := "b1"; acl := "private";
                            website := false;
                            index_document := "index.html";
                            error_document := "error.html"; tags := ∅ |}
                         {| Id := "b1"; bucket := "b1"; acl := "private";
                            website := false;
                            index_document := EmptyString;
                            error_document := EmptyString; tags := ∅ |}
                         [Failure denied] eq_refl eq_refl eq_refl))).
Defined.
